(** * AtomicWatcherAquarium: the watcher lifecycle supervisor of [main.py]

    A shallow embedding of [discover_watchers], [main] and the process entry
    of [main.py].  Everything the program does to the outside (log lines, the
    notifier, the watcher modules, the tasks of the event loop) is recorded as
    a trace of events; everything the outside decides (the configuration
    file, the watcher directory, how each module and each coroutine behaves,
    whether the notifier raises, when an interrupt arrives) is a field of a
    [world].

    The code is written in a monad of state, exceptions and divergence, so
    that [try], [except] and [finally] can be written where the source has
    them.  The event loop of asyncio is modelled by scheduler rounds: a
    coroutine says in which round it ends by itself, [gather] lets as many
    rounds pass as the documented behaviour of [asyncio.gather] requires, and
    a task asked to cancel answers in the next round.  Rounds pass only while
    [main] waits in [gather]; an interrupt is delivered only during the first
    wait.

    What is left out: [setup_logging] and the command line (the trace keeps
    every log call, whatever the sinks), exceptions of watcher code that do
    not derive from [Exception], and what [asyncio.run] does to tasks that
    are still pending when [main] has ended. *)

From Stdlib Require Import String Ascii List Arith ZArith Lia Bool DecimalString.
Import ListNotations.
Open Scope string_scope.
Open Scope list_scope.
Open Scope nat_scope.
Set Warnings "-register-all".

(** ** Python strings *)

Module Str.

(** [s.startswith(p)] *)
Definition startswith (p s : string) : bool := String.prefix p s.

(** [s.replace(old, new)] for a non-empty [old]: the occurrences are found
    from left to right and do not overlap.  [skip] counts the characters of
    the occurrence just matched that are still to be passed over. *)
Fixpoint replace_from (old new : string) (skip : nat) (s : string) : string :=
  match s with
  | EmptyString => EmptyString
  | String c s' =>
      match skip with
      | S k => replace_from old new k s'
      | O =>
          if String.prefix old s
          then new ++ replace_from old new (String.length old - 1) s'
          else String c (replace_from old new 0 s')
      end
  end.

Definition replace (old new s : string) : string := replace_from old new 0 s.

(** [s.split(sep)] for a one-character separator. *)
Fixpoint split (sep : ascii) (s : string) : list string :=
  match s with
  | EmptyString => [EmptyString]
  | String c s' =>
      if Ascii.eqb c sep then EmptyString :: split sep s'
      else match split sep s' with
           | h :: t => String c h :: t
           | [] => [String c EmptyString]
           end
  end.

(** [s.split(sep)[-1]] *)
Definition last_field (sep : ascii) (s : string) : string :=
  List.last (split sep s) EmptyString.

(** [s.rfind(".")], as an index from the left. *)
Fixpoint rfind_dot (s : string) : option nat :=
  match s with
  | EmptyString => None
  | String c s' =>
      match rfind_dot s' with
      | Some i => Some (S i)
      | None => if Ascii.eqb c "."%char then Some 0 else None
      end
  end.

(** [PurePath.stem]: the final component without its last suffix.  A name
    whose only dot is the first or the last character has no suffix. *)
Definition stem (name : string) : string :=
  match rfind_dot name with
  | Some i =>
      if (0 <? i) && (i <? String.length name - 1)
      then String.substring 0 i name
      else name
  | None => name
  end.

(** [name] matches the glob pattern [*.py]. *)
Fixpoint endswith (suffix s : string) : bool :=
  if String.eqb s suffix then true
  else match s with
       | EmptyString => false
       | String _ s' => endswith suffix s'
       end.

(** [str(n)] for a non-negative integer. *)
Definition of_nat (n : nat) : string := NilEmpty.string_of_uint (Nat.to_uint n).

End Str.

(** ** Values read from [config.yaml] *)

(** What [yaml.safe_load] can return, as far as [main] can tell the values
    apart: only a mapping has a [get] method.  A mapping is kept as the list
    of its items; its keys are distinct, as the keys of a [dict] are. *)
Inductive yaml : Type :=
| YNull
| YBool (b : bool)
| YInt (z : Z)
| YStr (s : string)
| YList (l : list yaml)
| YMap (items : list (string * yaml)).

Definition empty_mapping : yaml := YMap [].

Fixpoint lookup (items : list (string * yaml)) (key : string) : option yaml :=
  match items with
  | [] => None
  | (k, v) :: rest => if String.eqb k key then Some v else lookup rest key
  end.

(** [type(v).__name__] *)
Definition type_name (v : yaml) : string :=
  match v with
  | YNull => "NoneType"
  | YBool _ => "bool"
  | YInt _ => "int"
  | YStr _ => "str"
  | YList _ => "list"
  | YMap _ => "dict"
  end.

(** ** Exceptions *)

(** [Exception msg] stands for any instance of a subclass of [Exception],
    with [msg] its [str()]; the other three derive from [BaseException]
    only, so [except Exception] lets them through. *)
Inductive exn : Type :=
| Exception (msg : string)
| KeyboardInterrupt
| CancelledError
| SystemExit (code : Z).

Definition is_Exception (e : exn) : bool :=
  match e with Exception _ => true | _ => false end.

Definition is_KeyboardInterrupt (e : exn) : bool :=
  match e with KeyboardInterrupt => true | _ => false end.

(** ** Watcher modules, coroutines and tasks *)

(** How a coroutine ends when left alone. *)
Inductive outcome : Type :=
| Returns
| Raises (msg : string).

(** What a coroutine does once [CancelledError] is thrown into it. *)
Inductive cancel_response : Type :=
| Unwinds                 (* lets the CancelledError propagate *)
| Swallows (o : outcome)  (* catches it, then returns or raises *)
| Stalls.                 (* catches it and never finishes *)

(** A watcher coroutine: [natural = Some (n, o)] ends by itself with [o] in
    scheduler round [n]; [natural = None] runs until it is cancelled. *)
Record coroutine : Type := {
  natural : option (nat * outcome);
  on_cancel : cancel_response
}.

(** The value [module.init(notifier, config)] returns. *)
Inductive init_value : Type :=
| Falsy                         (* None, or any other false value *)
| Coroutine (c : coroutine)
| NotAwaitable (repr : string). (* a true value that is no coroutine *)

Inductive init_result : Type :=
| InitRaises (msg : string)
| InitReturns (v : init_value).

(** A loaded module: its [__name__] and its [init] attribute, if it has
    one, as a function of the configuration it is given. *)
Record module : Type := {
  mod_name : string;
  mod_init : option (yaml -> init_result)
}.

(** What [importlib.import_module] does for a file of the directory. *)
Inductive load_result : Type :=
| LoadRaises (msg : string)
| Loaded (init : option (yaml -> init_result)).

Record dir_entry : Type := {
  fname : string;
  load : load_result
}.

(** States of a task; the last three are terminal. *)
Inductive final : Type :=
| Completed
| Failed (msg : string)
| Cancelled.

Inductive status : Type :=
| Running
| Cancelling              (* cancel() was called, the task has not run since *)
| Done (f : final).

Definition final_of (o : outcome) : final :=
  match o with Returns => Completed | Raises msg => Failed msg end.

Record task : Type := {
  task_name : string;
  body : coroutine;
  state : status
}.

Definition done (t : task) : bool :=
  match state t with Done _ => true | _ => false end.

(** ** The outside world *)

(** How an interrupt signal reaches [main] while it waits: as a
    KeyboardInterrupt raised at the [await], or as the cancellation of [main]
    by the runner (what [asyncio.run] does on SIGINT since Python 3.11). *)
Inductive interrupt_kind : Type :=
| AsKeyboardInterrupt
| AsCancellation.

(** The class [Notifier] comes from the module [notifier], which is not part
    of the embedded source: whether its constructor, [send] and [close]
    raise is left open. *)

Record world : Type := {
  here : string;                     (* Path(__file__).parent *)
  config_exists : bool;              (* config_path.exists() *)
  config_load : yaml + string;       (* open and yaml.safe_load: the document, or the error *)
  notifier_ctor : yaml -> option string;   (* Notifier(cfg): the error it raises, if any *)
  watchers_dir : option (list dir_entry);  (* None: no watchers/ directory *)
  send_raises : option string;       (* notifier.send(text) *)
  close_raises : option string;      (* notifier.close() *)
  interrupt : option (nat * interrupt_kind) (* the round an interrupt arrives in *)
}.

(** ** Events *)

Inductive level : Type := INFO | WARNING | ERROR.

Inductive event : Type :=
| Log (l : level) (msg : string)
| NotifierInit (cfg : yaml)
| InitCall (name : string) (cfg : yaml)
| TaskCreated (name : string)
| Send (text : string)
| WaitBegin
| TaskDone (name : string) (f : final)
| CancelRequested (name : string)
| WaitAllBegin
| Close.


(** ** The state of a run and the monad of [main] *)

(** The trace so far, the tasks of the event loop in the order of their
    creation (a task handle is a position in this list) and the number of
    scheduler rounds that have passed. *)
Record sched : Type := {
  trace : list event;
  tasks_of : list task;
  clock : nat
}.

Definition initial : sched := {| trace := []; tasks_of := []; clock := 0 |}.

(** A step returns, raises, or never comes back. *)
Inductive res (A : Type) : Type :=
| Ret (a : A)
| Exc (e : exn)
| Hang.
Arguments Ret {A} a.
Arguments Exc {A} e.
Arguments Hang {A}.

Definition M (A : Type) : Type := sched -> sched * res A.

Definition ret {A} (a : A) : M A := fun s => (s, Ret a).

Definition bind {A B} (m : M A) (k : A -> M B) : M B :=
  fun s =>
    match m s with
    | (s1, Ret a) => k a s1
    | (s1, Exc e) => (s1, Exc e)
    | (s1, Hang) => (s1, Hang)
    end.

Declare Scope run_scope.
Delimit Scope run_scope with run.
Notation "x <- m ;; k" := (bind m (fun x => k))
  (at level 61, m at next level, right associativity) : run_scope.
Notation "m ;; k" := (bind m (fun _ => k))
  (at level 61, right associativity) : run_scope.
Open Scope run_scope.

Definition raise {A} (e : exn) : M A := fun s => (s, Exc e).

Definition add_trace (s : sched) (evs : list event) : sched :=
  {| trace := trace s ++ evs; tasks_of := tasks_of s; clock := clock s |}.

Definition emit (e : event) : M unit := fun s => (add_trace s [e], Ret tt).

Definition log (l : level) (msg : string) : M unit := emit (Log l msg).

(** [try: body except <class> as e: handler e] *)
Definition try_except {A} (body : M A) (catches : exn -> bool)
    (handler : exn -> M A) : M A :=
  fun s =>
    match body s with
    | (s1, Exc e) => if catches e then handler e s1 else (s1, Exc e)
    | r => r
    end.

(** [try: body finally: cleanup]: the cleanup runs whether the body returned
    or raised; an exception of the cleanup replaces that of the body. *)
Definition try_finally {A} (body : M A) (cleanup : M unit) : M A :=
  fun s =>
    match body s with
    | (s1, Ret a) =>
        match cleanup s1 with
        | (s2, Ret _) => (s2, Ret a)
        | (s2, Exc e) => (s2, Exc e)
        | (s2, Hang) => (s2, Hang)
        end
    | (s1, Exc e) =>
        match cleanup s1 with
        | (s2, Ret _) => (s2, Exc e)
        | (s2, Exc e') => (s2, Exc e')
        | (s2, Hang) => (s2, Hang)
        end
    | (s1, Hang) => (s1, Hang)
    end.

(** [try: body except <class1>: ... except <class2>: ...]: at most one of
    the handlers runs, and what it raises is not caught here. *)
Definition try_except2 {A} (body : M A)
    (catches1 : exn -> bool) (handler1 : exn -> M A)
    (catches2 : exn -> bool) (handler2 : exn -> M A) : M A :=
  fun s =>
    match body s with
    | (s1, Exc e) =>
        if catches1 e then handler1 e s1
        else if catches2 e then handler2 e s1
        else (s1, Exc e)
    | r => r
    end.

(** [for x in xs: f x] *)
Fixpoint for_each {A} (xs : list A) (f : A -> M unit) : M unit :=
  match xs with
  | [] => ret tt
  | x :: rest => f x ;; for_each rest f
  end.

(** [str(e)] *)
Definition exn_str (e : exn) : string :=
  match e with
  | Exception msg => msg
  | KeyboardInterrupt => ""
  | CancelledError => ""
  | SystemExit code =>
      match code with
      | Z0 => "0"
      | Zpos p => Str.of_nat (Pos.to_nat p)
      | Zneg p => "-" ++ Str.of_nat (Pos.to_nat p)
      end
  end.

(** [sys.exit(code)] *)
Definition sys_exit {A} (code : Z) : M A := raise (SystemExit code).

(** [d.get(key, default)]: only a mapping has the method. *)
Definition py_get (d : yaml) (key : string) (default : yaml) : M yaml :=
  match d with
  | YMap items =>
      ret (match lookup items key with Some v => v | None => default end)
  | _ => raise (Exception ("'" ++ type_name d ++ "' object has no attribute 'get'"))
  end.

(** ** The event loop *)

(** A task handle, as [main] holds it in its list [tasks]: the position of
    the task in the loop and the name it was created with. *)
Record handle : Type := {
  hid : nat;
  hname : string
}.

Fixpoint update {A} (i : nat) (f : A -> A) (l : list A) : list A :=
  match l, i with
  | [], _ => []
  | x :: rest, O => f x :: rest
  | x :: rest, S j => x :: update j f rest
  end.

Definition with_state (t : task) (st : status) : task :=
  {| task_name := task_name t; body := body t; state := st |}.

(** [asyncio.create_task(coro, name=...)]: anything but a coroutine is
    refused with a TypeError. *)
Definition create_task (v : init_value) (name : string) : M handle :=
  fun s =>
    match v with
    | Coroutine c =>
        ({| trace := trace s ++ [TaskCreated name];
            tasks_of := tasks_of s ++ [{| task_name := name; body := c; state := Running |}];
            clock := clock s |},
         Ret {| hid := List.length (tasks_of s); hname := name |})
    | NotAwaitable repr =>
        (s, Exc (Exception ("a coroutine was expected, got " ++ repr)))
    | Falsy =>
        (s, Exc (Exception "a coroutine was expected, got None"))
    end.

(** [task.done()] *)
Definition task_done (h : handle) : M bool :=
  fun s =>
    (s, Ret (match nth_error (tasks_of s) (hid h) with
             | Some t => done t
             | None => true
             end)).

Definition request_cancel (t : task) : task :=
  match state t with
  | Running => with_state t Cancelling
  | _ => t
  end.

(** [task.cancel()] *)
Definition task_cancel (h : handle) : M unit :=
  fun s =>
    ({| trace := trace s ++ [CancelRequested (hname h)];
        tasks_of := update (hid h) request_cancel (tasks_of s);
        clock := clock s |}, Ret tt).

(** When and how a task ends if nobody touches it any more: the number of
    rounds from round [now] on, and its terminal state.  A task asked to
    cancel answers in the next round. *)
Definition fate (now : nat) (t : task) : option (nat * final) :=
  match state t with
  | Done f => Some (0, f)
  | Cancelling =>
      match on_cancel (body t) with
      | Unwinds => Some (0, Cancelled)
      | Swallows o => Some (0, final_of o)
      | Stalls => None
      end
  | Running =>
      match natural (body t) with
      | Some (n, o) => Some (n - now, final_of o)
      | None => None
      end
  end.

(** The exception a finished task hands to whoever awaits it. *)
Definition exn_of (f : final) : option exn :=
  match f with
  | Completed => None
  | Failed msg => Some (Exception msg)
  | Cancelled => Some CancelledError
  end.

(** The first exception among the awaited tasks, with its round; of two in
    the same round the one of the earlier task. *)
Fixpoint first_exception (fates : list (option (nat * final))) : option (nat * exn) :=
  match fates with
  | [] => None
  | ft :: rest =>
      let later := first_exception rest in
      match ft with
      | Some (n, f) =>
          match exn_of f with
          | Some e =>
              match later with
              | Some (n', _) => if n' <? n then later else Some (n, e)
              | None => Some (n, e)
              end
          | None => later
          end
      | None => later
      end
  end.

(** The round in which the last awaited task ends; [None] when one of them
    never ends. *)
Fixpoint last_round (fates : list (option (nat * final))) : option nat :=
  match fates with
  | [] => Some 0
  | Some (n, _) :: rest => option_map (Nat.max n) (last_round rest)
  | None :: _ => None
  end.

(** The last round in which any of them ends. *)
Fixpoint horizon (fates : list (option (nat * final))) : nat :=
  match fates with
  | [] => 0
  | Some (n, _) :: rest => Nat.max n (horizon rest)
  | None :: rest => horizon rest
  end.

(** How an [await asyncio.gather(...)] ends.  [cutoff] is the number of
    rounds that pass: every task whose round is below it has ended. *)
Inductive wait_end : Type :=
| Returned (cutoff : nat)
| Raised (cutoff : nat) (e : exn)
| Blocked (cutoff : nat).

(** Without an interrupt: [gather] raises the first exception at once,
    unless [return_exceptions] is set; otherwise it returns when all awaited
    tasks have ended. *)
Definition natural_end (return_exceptions : bool)
    (fates : list (option (nat * final))) : wait_end :=
  match (if return_exceptions then None else first_exception fates) with
  | Some (n, e) => Raised (S n) e
  | None =>
      match last_round fates with
      | Some n => Returned (S n)
      | None => Blocked (S (horizon fates))
      end
  end.

(** An interrupt in round [r] reaches the waiting coroutine before the tasks
    of round [r] run. *)
Definition wait_end_of (return_exceptions : bool) (intr : option (nat * exn))
    (fates : list (option (nat * final))) : wait_end :=
  match intr with
  | None => natural_end return_exceptions fates
  | Some (r, e) =>
      match natural_end return_exceptions fates with
      | Returned c => if c <=? r then Returned c else Raised r e
      | Raised c e' => if c <=? r then Raised c e' else Raised r e
      | Blocked _ => Raised r e
      end
  end.

(** The tasks that end in round [r], as events. *)
Definition ends_in (now r : nat) (t : task) : list event :=
  if done t then []
  else match fate now t with
       | Some (n, f) => if n =? r then [TaskDone (task_name t) f] else []
       | None => []
       end.

Definition settle (now cutoff : nat) (t : task) : task :=
  if done t then t
  else match fate now t with
       | Some (n, f) => if n <? cutoff then with_state t (Done f) else t
       | None => t
       end.

(** The tasks that end in the next [cutoff] rounds, round by round and, in
    a round, in the order of their creation. *)
Definition done_events (now cutoff : nat) (ts : list task) : list event :=
  flat_map (fun r => flat_map (ends_in now r) ts) (seq 0 cutoff).

(** Let [cutoff] rounds pass. *)
Definition advance (cutoff : nat) (s : sched) : sched :=
  {| trace := trace s ++ done_events (clock s) cutoff (tasks_of s);
     tasks_of := map (settle (clock s) cutoff) (tasks_of s);
     clock := clock s + cutoff |}.

Definition awaited (hs : list handle) (ts : list task) : list task :=
  flat_map (fun h => match nth_error ts (hid h) with
                     | Some t => [t]
                     | None => []
                     end) hs.

(** [await asyncio.gather( *tasks, return_exceptions=... )], with the
    interrupt that may arrive while it waits (as a round of the clock). *)
Definition gather (return_exceptions : bool) (intr : option (nat * exn))
    (hs : list handle) : M unit :=
  fun s =>
    let fates := map (fate (clock s)) (awaited hs (tasks_of s)) in
    let intr' := option_map (fun '(r, e) => (r - clock s, e)) intr in
    match wait_end_of return_exceptions intr' fates with
    | Returned c => (advance c s, Ret tt)
    | Raised c e => (advance c s, Exc e)
    | Blocked c => (advance c s, Hang)
    end.

(** ** The notifier *)

(** [Notifier(notifier_config)] *)
Definition Notifier (w : world) (cfg : yaml) : M unit :=
  emit (NotifierInit cfg) ;;
  match notifier_ctor w cfg with
  | Some msg => raise (Exception msg)
  | None => ret tt
  end.

(** [await notifier.send(text)] *)
Definition notifier_send (w : world) (text : string) : M unit :=
  emit (Send text) ;;
  match send_raises w with
  | Some msg => raise (Exception msg)
  | None => ret tt
  end.

(** [await notifier.close()] *)
Definition notifier_close (w : world) : M unit :=
  emit Close ;;
  match close_raises w with
  | Some msg => raise (Exception msg)
  | None => ret tt
  end.

(** ** [discover_watchers] *)

(** [watchers_dir.glob("*.py")], in the order of the scan. *)
Definition glob_py (entries : list dir_entry) : list dir_entry :=
  filter (fun file => Str.endswith ".py" (fname file)) entries.

(** [importlib.import_module(module_name)] *)
Definition import_module (module_name : string) (file : dir_entry) : M module :=
  match load file with
  | LoadRaises msg => raise (Exception msg)
  | Loaded init => ret {| mod_name := module_name; mod_init := init |}
  end.

(** [hasattr(module, "init")] *)
Definition has_init (m : module) : bool :=
  match mod_init m with Some _ => true | None => false end.

(** The loop over the files, with the list [watcher_modules] it builds. *)
Fixpoint discover_loop (files : list dir_entry) (watcher_modules : list module)
    : M (list module) :=
  match files with
  | [] => ret watcher_modules
  | file :: rest =>
      if Str.startswith "_" (fname file) then discover_loop rest watcher_modules
      else
        let module_name := ("watchers." ++ Str.stem (fname file))%string in
        watcher_modules' <-
          try_except
            (module <- import_module module_name file ;;
             if has_init module then
               log INFO ("Discovered watcher: " ++ module_name) ;;
               ret (watcher_modules ++ [module])
             else
               log WARNING ("Module " ++ module_name ++ " has no init() function") ;;
               ret watcher_modules)
            is_Exception
            (fun e =>
               log ERROR ("Failed to load watcher " ++ module_name ++ ": " ++ exn_str e) ;;
               ret watcher_modules) ;;
        discover_loop rest watcher_modules'
  end.

Definition discover_watchers (w : world) : M (list module) :=
  match watchers_dir w with
  | None =>
      log ERROR ("Watchers directory not found: " ++ here w ++ "/watchers") ;;
      ret []
  | Some entries => discover_loop (glob_py entries) []
  end.

(** ** [main] *)

(** [module.init(notifier, watcher_config)] *)
Definition call_init (m : module) (module_name : string) (watcher_config : yaml)
    : M init_value :=
  match mod_init m with
  | None => raise (Exception ("module '" ++ mod_name m ++ "' has no attribute 'init'"))
  | Some init =>
      emit (InitCall module_name watcher_config) ;;
      match init watcher_config with
      | InitRaises msg => raise (Exception msg)
      | InitReturns v => ret v
      end
  end.

(** [if coro:] *)
Definition truthy (v : init_value) : bool :=
  match v with Falsy => false | _ => true end.

(** The loop that initialises the watchers, with the list [tasks] it builds. *)
Fixpoint start_loop (watchers_config : yaml) (modules : list module)
    (tasks : list handle) : M (list handle) :=
  match modules with
  | [] => ret tasks
  | module :: rest =>
      tasks' <-
        try_except
          (let module_name := Str.last_field "." (mod_name module) in
           watcher_config <- py_get watchers_config module_name empty_mapping ;;
           coro <- call_init module module_name watcher_config ;;
           if truthy coro then
             task_obj <- create_task coro ("watcher_" ++ module_name) ;;
             log INFO ("Started watcher: " ++ module_name) ;;
             ret (tasks ++ [task_obj])
           else ret tasks)
          is_Exception
          (fun e =>
             log ERROR ("Failed to initialize " ++ mod_name module ++ ": " ++ exn_str e) ;;
             ret tasks) ;;
      start_loop watchers_config rest tasks'
  end.

Definition nl : string := String (ascii_of_nat 10) EmptyString.

(** [[t.get_name().replace("watcher_", "") for t in tasks]] *)
Definition active_watchers (tasks : list handle) : list string :=
  map (fun t => Str.replace "watcher_" "" (hname t)) tasks.

Definition startup_header : string :=
  "# 🚀 AtomicWatcherAquarium Started!" ++ nl ++ nl ++
  "System initialized successfully!" ++ nl ++ nl ++
  "## Active Watchers" ++ nl ++ nl.

Definition bullet (name : string) : string := "- `" ++ name ++ "`".

Definition startup_markdown (tasks : list handle) : string :=
  startup_header ++ String.concat nl (map bullet (active_watchers tasks)).

Definition interrupt_exn (k : interrupt_kind) : exn :=
  match k with
  | AsKeyboardInterrupt => KeyboardInterrupt
  | AsCancellation => CancelledError
  end.

(** [with open(config_path) as f: config = yaml.safe_load(f)] *)
Definition load_config (w : world) : M yaml :=
  match config_load w with
  | inl doc => ret doc
  | inr msg => raise (Exception msg)
  end.

(** The [finally] block of [main]. *)
Definition shutdown (w : world) (tasks : list handle) : M unit :=
  for_each tasks
    (fun task => d <- task_done task ;; if negb d then task_cancel task else ret tt) ;;
  emit WaitAllBegin ;;
  gather true None tasks ;;
  notifier_close w ;;
  log INFO "All watchers stopped. AWA terminated.".

(** The interrupt, as the exception it raises at the first wait. *)
Definition interrupt_at (w : world) : option (nat * exn) :=
  option_map (fun '(r, k) => (r, interrupt_exn k)) (interrupt w).

(** From the startup notification to the end of [main]. *)
Definition supervise (w : world) (tasks : list handle) : M unit :=
  notifier_send w (startup_markdown tasks) ;;
  log INFO "Startup notification sent" ;;
  try_finally
    (try_except
       (emit WaitBegin ;;
        gather false (interrupt_at w) tasks)
       is_KeyboardInterrupt
       (fun _ => log INFO "Shutdown signal received, stopping watchers..."))
    (shutdown w tasks).

Definition main (w : world) : M unit :=
  (if negb (config_exists w) then
     log ERROR "config.yaml not found! Please create it from config.example.yaml" ;;
     sys_exit 1
   else ret tt) ;;
  config <-
    try_except (load_config w) is_Exception
      (fun e => log ERROR ("Failed to load config.yaml: " ++ exn_str e) ;; sys_exit 1) ;;
  log INFO "AtomicWatcherAquarium starting" ;;
  notifier_config <- py_get config "notifier" empty_mapping ;;
  Notifier w notifier_config ;;
  watcher_modules <- discover_watchers w ;;
  match watcher_modules with
  | [] => log WARNING "No watchers found!"
  | _ :: _ =>
      watchers_config <- py_get config "watchers" empty_mapping ;;
      tasks <- start_loop watchers_config watcher_modules [] ;;
      match tasks with
      | [] => log ERROR "No watcher tasks started!"
      | _ :: _ =>
          log INFO ("Running " ++ Str.of_nat (List.length tasks) ++ " watcher(s)...") ;;
          log INFO "Press Ctrl+C to stop..." ;;
          supervise w tasks
      end
  end.

(** ** The process entry *)

(** [asyncio.run(main())]: when [main] ends cancelled because of the
    interrupt signal, the runner raises KeyboardInterrupt in its place. *)
Definition asyncio_run (w : world) (m : M unit) : M unit :=
  fun s =>
    match m s with
    | (s1, Exc CancelledError) =>
        match interrupt w with
        | Some (_, AsCancellation) => (s1, Exc KeyboardInterrupt)
        | _ => (s1, Exc CancelledError)
        end
    | r => r
    end.

(** The [try] of the [__main__] block. *)
Definition script (w : world) : M unit :=
  try_except2 (asyncio_run w (main w))
    is_KeyboardInterrupt
    (fun _ => log INFO "AWA terminated by user")
    is_Exception
    (fun e => log ERROR ("Fatal error: " ++ exn_str e) ;; sys_exit 1).

(** The exit status of the process: 0 when the script ends, the argument of
    [sys.exit], 1 for an exception nobody caught; [None] when the process
    never exits. *)
Definition exit_status (r : res unit) : option Z :=
  match r with
  | Ret _ => Some 0%Z
  | Exc (SystemExit code) => Some code
  | Exc _ => Some 1%Z
  | Hang => None
  end.

(** A whole run: its trace and its exit status. *)
Definition run (w : world) : list event * option Z :=
  let '(s, r) := script w initial in (trace s, exit_status r).

(** ** Notions the properties are stated with *)










(** What [d.get(key, {})] gives on a mapping with the items [items]: the
    section stored under [key], or an empty mapping. *)
Definition section_of (items : list (string * yaml)) (key : string) : yaml :=
  match lookup items key with
  | Some v => v
  | None => empty_mapping
  end.














(** ** The waits and the shutdown sequence, task by task *)









(** ** Kinds of events *)





(** ** Worlds used as examples *)

Definition forever : coroutine := {| natural := None; on_cancel := Unwinds |}.


(** A watcher file whose [init] returns [v], whatever its configuration. *)
Definition watcher_file (name : string) (v : init_value) : dir_entry :=
  {| fname := name; load := Loaded (Some (fun _ => InitReturns v)) |}.

(** A world with a configuration that has both sections, a notifier that
    works and no interrupt; only the watcher files are left open. *)
Definition world_with (files : list dir_entry) : world :=
  {| here := "/opt/awa";
     config_exists := true;
     config_load := inl (YMap [("notifier", empty_mapping); ("watchers", empty_mapping)]);
     notifier_ctor := fun _ => None;
     watchers_dir := Some files;
     send_raises := None;
     close_raises := None;
     interrupt := None |}.

Definition set_config (w : world) (c : yaml + string) : world :=
  {| here := here w;
     config_exists := config_exists w;
     config_load := c;
     notifier_ctor := notifier_ctor w;
     watchers_dir := watchers_dir w;
     send_raises := send_raises w;
     close_raises := close_raises w;
     interrupt := interrupt w |}.


(** No watcher file at all. *)
Definition empty_world : world := world_with [].




(** One watcher whose file name contains "watcher_". *)
Definition infix_world : world :=
  world_with [watcher_file "disk_watcher_v2.py" (Coroutine forever)].

(** An empty [config.yaml]: [yaml.safe_load] returns [None]. *)
Definition null_config_world : world := set_config empty_world (inl YNull).

(** A [config.yaml] holding an empty mapping: neither section is there. *)
Definition bare_config_world : world := set_config empty_world (inl (YMap [])).

(** ** Statements of the specification that the code does not meet as worded *)






(** The document has no section [key]. *)
Definition lacks (doc : yaml) (key : string) : Prop :=
  match doc with
  | YMap items => lookup items key = None
  | _ => True
  end.

(** C10 as worded: a document that lacks one of the two sections is
    accepted, an empty mapping standing for the missing section, and no
    error comes of it. *)
Definition missing_section_claim (w : world) : Prop :=
  forall doc s r,
    config_exists w = true ->
    config_load w = inl doc ->
    lacks doc "notifier" \/ lacks doc "watchers" ->
    main w initial = (s, r) ->
    (lacks doc "notifier" -> In (NotifierInit empty_mapping) (trace s)) /\
    forall msg, r <> Exc (Exception msg).

(** ** Further notions: names, shutdown answers, further worlds *)








Definition set_exists (w : world) (b : bool) : world :=
  {| here := here w;
     config_exists := b;
     config_load := config_load w;
     notifier_ctor := notifier_ctor w;
     watchers_dir := watchers_dir w;
     send_raises := send_raises w;
     close_raises := close_raises w;
     interrupt := interrupt w |}.


Definition set_dir (w : world) (dir : option (list dir_entry)) : world :=
  {| here := here w;
     config_exists := config_exists w;
     config_load := config_load w;
     notifier_ctor := notifier_ctor w;
     watchers_dir := dir;
     send_raises := send_raises w;
     close_raises := close_raises w;
     interrupt := interrupt w |}.



(** There is no [config.yaml]. *)
Definition no_config_world : world := set_exists empty_world false.

(** [config.yaml] holds a list. *)
Definition list_config_world : world := set_config empty_world (inl (YList [])).


(** There is no [watchers/] directory. *)
Definition no_dir_world : world := set_dir empty_world None.













(** * Properties *)

(** ** The monad *)



Lemma bind_emit {B} e (k : unit -> M B) s :
  bind (emit e) k s = k tt (add_trace s [e]).
Proof. reflexivity. Qed.

Lemma bind_ret {A B} (a : A) (k : A -> M B) s : bind (ret a) k s = k a s.
Proof. reflexivity. Qed.

(** ** Discovery *)




(** ** The start loop *)






(** *** Counting the tasks *)








(** ** The event loop *)














(** ** The shutdown sequence *)





(** ** [main] up to the startup notification *)








(** ** What a wait does to the tasks *)













(** ** The process entry *)

Lemma script_eq w :
  script w initial =
  match main w initial with
  | (s, Ret u) => (s, Ret u)
  | (s, Exc (Exception msg)) =>
      (add_trace s [Log ERROR ("Fatal error: " ++ msg)], Exc (SystemExit 1))
  | (s, Exc KeyboardInterrupt) => (add_trace s [Log INFO "AWA terminated by user"], Ret tt)
  | (s, Exc CancelledError) =>
      match interrupt w with
      | Some (_, AsCancellation) =>
          (add_trace s [Log INFO "AWA terminated by user"], Ret tt)
      | _ => (s, Exc CancelledError)
      end
  | (s, Exc (SystemExit code)) => (s, Exc (SystemExit code))
  | (s, Hang) => (s, Hang)
  end.
Proof.
  unfold script, try_except2, asyncio_run.
  destruct (main w initial) as [s [u|[msg| | |code]|]]; try reflexivity.
  destruct (interrupt w) as [[r [|]]|]; reflexivity.
Qed.

(** ** A run without tasks *)












(** ** Runs with tasks *)










(** ** A task that fails during the first wait *)







(** ** The sections of the configuration *)

(** C10, as the code has it.  When the loaded document is a mapping, looking
    up a section it lacks raises nothing and gives an empty mapping, and
    [main] runs exactly as it does on the same document with that section
    present and empty; this holds for the [notifier] section and for the
    [watchers] section. *)
Theorem missing_section_defaults_to_empty (w : world) (items : list (string * yaml)) :
  config_load w = inl (YMap items) ->
  (forall key s,
      lookup items key = None ->
      py_get (YMap items) key empty_mapping s = (s, Ret empty_mapping)) /\
  (lookup items "notifier" = None ->
   forall s,
     main w s =
     main (set_config w (inl (YMap (("notifier", empty_mapping) :: items)))) s) /\
  (lookup items "watchers" = None ->
   forall s,
     main w s =
     main (set_config w (inl (YMap (("watchers", empty_mapping) :: items)))) s).
Proof.
  intros Hload. split; [|split].
  - intros key s Hl. unfold py_get. now rewrite Hl.
  - intros Hl s.
    assert (E1 : lookup (("notifier", empty_mapping) :: items) "notifier"
                 = Some empty_mapping) by reflexivity.
    assert (E2 : lookup (("notifier", empty_mapping) :: items) "watchers"
                 = lookup items "watchers") by reflexivity.
    unfold main, load_config. cbn [set_config config_load config_exists].
    rewrite Hload.
    cbv beta iota zeta delta [bind try_except ret py_get].
    rewrite E1, E2, Hl. reflexivity.
  - intros Hl s.
    assert (E1 : lookup (("watchers", empty_mapping) :: items) "watchers"
                 = Some empty_mapping) by reflexivity.
    assert (E2 : lookup (("watchers", empty_mapping) :: items) "notifier"
                 = lookup items "notifier") by reflexivity.
    unfold main, load_config. cbn [set_config config_load config_exists].
    rewrite Hload.
    cbv beta iota zeta delta [bind try_except ret py_get].
    rewrite E1, E2, Hl. reflexivity.
Qed.

Lemma missing_section_witness :
  (forall key s,
      lookup [] key = None ->
      py_get (YMap []) key empty_mapping s = (s, Ret empty_mapping)) /\
  (lookup [] "notifier" = None ->
   forall s,
     main bare_config_world s =
     main (set_config bare_config_world
             (inl (YMap [("notifier", empty_mapping)]))) s) /\
  (lookup [] "watchers" = None ->
   forall s,
     main bare_config_world s =
     main (set_config bare_config_world
             (inl (YMap [("watchers", empty_mapping)]))) s).
Proof.
  apply (missing_section_defaults_to_empty bare_config_world []). reflexivity.
Defined.

(** C10 as worded fails: an empty [config.yaml] has neither section, and
    [main] ends with the AttributeError of [None.get]. *)
Lemma missing_section_claim_fails : ~ missing_section_claim null_config_world.
Proof.
  intros H.
  destruct (H YNull (fst (main null_config_world initial))
              (snd (main null_config_world initial))
              eq_refl eq_refl (or_introl I)) as [_ Hno].
  - vm_compute. reflexivity.
  - apply (Hno "'NoneType' object has no attribute 'get'"). vm_compute. reflexivity.
Qed.

(** ** The trace of [supervise], whatever becomes of the run *)



(** ** The configuration each entry point receives, in a whole run *)








(** ** The text of the startup notification *)

(** C4 fails on the code.  For a watcher file [disk_watcher_v2.py] the unit
    is called [disk_watcher_v2]: that is the name its configuration is
    looked up with and its task is [watcher_disk_watcher_v2]; but the
    startup notification lists [disk_v2], because [replace] removes every
    occurrence of "watcher_" from the task name and not only the prefix. *)
Theorem startup_notification_drops_inner_prefix :
  In (InitCall "disk_watcher_v2" empty_mapping) (fst (run infix_world)) /\
  In (TaskCreated "watcher_disk_watcher_v2") (fst (run infix_world)) /\
  active_watchers [{| hid := 0; hname := "watcher_disk_watcher_v2" |}] = ["disk_v2"] /\
  In (Send (startup_header ++ "- `disk_v2`")) (fst (run infix_world)) /\
  ~ In (Send (startup_header ++ "- `disk_watcher_v2`")) (fst (run infix_world)).
Proof.
  vm_compute. repeat split; try tauto.
  intros H. repeat (destruct H as [H|H]; [discriminate|]). exact H.
Qed.






(** * Further properties of the code *)

(** ** Fatal errors at startup *)

(** X1. Without a readable [config.yaml] the process writes one error line
    and exits with status 1: the notifier is not built, the watcher
    directory is not looked at and no task exists. *)
Theorem config_unavailable_is_fatal (w : world) :
  config_exists w = false \/ (exists msg, config_load w = inr msg) ->
  exists line,
    run w = ([Log ERROR line], Some 1%Z) /\
    tasks_of (fst (script w initial)) = [] /\
    (config_exists w = false ->
     line = "config.yaml not found! Please create it from config.example.yaml") /\
    (config_exists w = true ->
     forall msg, config_load w = inr msg ->
                 line = ("Failed to load config.yaml: " ++ msg)%string).
Proof.
  intros H. unfold run. rewrite script_eq. unfold main.
  destruct (config_exists w) eqn:Hex.
  - destruct H as [H|(msg & Hmsg)]; [discriminate|].
    unfold load_config. rewrite Hmsg.
    eexists. split; [reflexivity|]. split; [reflexivity|].
    split; [discriminate|]. intros _ msg' [= <-]. reflexivity.
  - eexists. split; [reflexivity|]. split; [reflexivity|].
    split; [reflexivity|discriminate].
Qed.

Lemma config_unavailable_witness :
  exists line,
    run no_config_world = ([Log ERROR line], Some 1%Z) /\
    tasks_of (fst (script no_config_world initial)) = [] /\
    (config_exists no_config_world = false ->
     line = "config.yaml not found! Please create it from config.example.yaml") /\
    (config_exists no_config_world = true ->
     forall msg, config_load no_config_world = inr msg ->
                 line = ("Failed to load config.yaml: " ++ msg)%string).
Proof. apply (config_unavailable_is_fatal no_config_world). left. reflexivity. Defined.

(** X2. When [config.yaml] loads as anything but a mapping (nothing at all, a
    list, a scalar), the first lookup fails: the process logs the fatal
    AttributeError and exits with status 1, before the notifier is built. *)
Theorem config_not_a_mapping_is_fatal (w : world) (doc : yaml) :
  config_exists w = true ->
  config_load w = inl doc ->
  (forall items, doc <> YMap items) ->
  run w =
    ([Log INFO "AtomicWatcherAquarium starting";
      Log ERROR ("Fatal error: '" ++ type_name doc
                 ++ "' object has no attribute 'get'")],
     Some 1%Z) /\
  tasks_of (fst (script w initial)) = [].
Proof.
  intros Hex Hload Hdoc. unfold run. rewrite script_eq. unfold main, load_config.
  rewrite Hex, Hload.
  destruct doc as [| | | | |items]; try (split; reflexivity).
  now destruct (Hdoc items).
Qed.

Lemma config_not_a_mapping_witness :
  run list_config_world =
    ([Log INFO "AtomicWatcherAquarium starting";
      Log ERROR ("Fatal error: '" ++ type_name (YList [])
                 ++ "' object has no attribute 'get'")],
     Some 1%Z) /\
  tasks_of (fst (script list_config_world initial)) = [].
Proof.
  apply (config_not_a_mapping_is_fatal list_config_world (YList []));
    try reflexivity. discriminate.
Defined.



(** ** Discovery *)

(** X4. A missing [watchers/] directory is not fatal: the discovery logs an
    error that names the directory and returns nothing, [main] adds the
    warning that no watcher was found and returns, and the exit status is 0. *)
Theorem missing_watchers_directory (w : world) (items : list (string * yaml)) :
  config_exists w = true ->
  config_load w = inl (YMap items) ->
  notifier_ctor w (section_of items "notifier") = None ->
  watchers_dir w = None ->
  (forall s, discover_watchers w s =
             (add_trace s [Log ERROR ("Watchers directory not found: "
                                      ++ here w ++ "/watchers")], Ret [])) /\
  run w =
    ([Log INFO "AtomicWatcherAquarium starting";
      NotifierInit (section_of items "notifier");
      Log ERROR ("Watchers directory not found: " ++ here w ++ "/watchers");
      Log WARNING "No watchers found!"],
     Some 0%Z).
Proof.
  intros Hex Hload Hctor Hdir.
  assert (Hdisc : forall s, discover_watchers w s =
                    (add_trace s [Log ERROR ("Watchers directory not found: "
                                             ++ here w ++ "/watchers")], Ret []))
    by (intros s; unfold discover_watchers; now rewrite Hdir).
  split; [exact Hdisc|].
  assert (Hm : main w initial =
               ({| trace := [Log INFO "AtomicWatcherAquarium starting";
                             NotifierInit (section_of items "notifier");
                             Log ERROR ("Watchers directory not found: "
                                        ++ here w ++ "/watchers");
                             Log WARNING "No watchers found!"];
                   tasks_of := []; clock := 0 |}, Ret tt)).
  { unfold main, load_config. rewrite Hex, Hload. cbn [negb]. rewrite bind_ret.
    unfold bind at 1, try_except. cbn [ret]. unfold log at 1. rewrite bind_emit.
    unfold py_get at 1. rewrite bind_ret. fold (section_of items "notifier").
    unfold bind at 1, Notifier. rewrite bind_emit, Hctor. cbn [ret].
    unfold bind at 1. rewrite Hdisc. reflexivity. }
  unfold run. now rewrite script_eq, Hm.
Qed.

Lemma missing_watchers_directory_witness :
  (forall s, discover_watchers no_dir_world s =
             (add_trace s [Log ERROR ("Watchers directory not found: "
                                      ++ here no_dir_world ++ "/watchers")], Ret [])) /\
  run no_dir_world =
    ([Log INFO "AtomicWatcherAquarium starting";
      NotifierInit (section_of [("notifier", empty_mapping); ("watchers", empty_mapping)]
                      "notifier");
      Log ERROR ("Watchers directory not found: " ++ here no_dir_world ++ "/watchers");
      Log WARNING "No watchers found!"],
     Some 0%Z).
Proof.
  apply (missing_watchers_directory no_dir_world
           [("notifier", empty_mapping); ("watchers", empty_mapping)]); reflexivity.
Defined.






(** ** The name of a unit *)












(** ** A watchers section that is no mapping *)





(** ** The startup notification *)








(** ** The whole of [supervise], in closed form *)






(** *** What the trace holds *)




















(** *** How the first wait ends *)












(** *** From the run to [supervise] *)




(** *** The trace of [supervise], piece by piece *)






(** ** Watchers that all return *)



(** ** An interrupt while the watchers run *)



(** ** A watcher that does not answer its cancellation *)




(** ** Watchers that run on *)




(** ** A notifier that cannot be closed *)



(** ** The exit status *)





